(** * Portal + MagSafe rotation authentication: the rotation detector

    A shallow embedding of the rotation-detection code of the technical
    reference (REFERENCE.md, phases 2 to 7 and the detection-algorithm
    pseudocode) and of ROTATION_POC.md.

    JavaScript numbers that carry sensor readings are IEEE 754 binary64
    values and are modelled by Rocq's primitive [float], so every
    definition below evaluates exactly as the source does.  Values read
    from [Date.now()] are integral milliseconds and detent counts are sums
    of +1 and -1; both are modelled by [Z].  React refs and state cells are
    fields of one record that is threaded through the listeners. *)

From Stdlib Require Import List ZArith Bool Lia.
From Stdlib Require Import Floats.
From Stdlib Require Uint63.
Import ListNotations.

(* Decimal literals of the source (0.03, 0.52, ...) denote, as in JavaScript,
   the nearest binary64 value. *)
Set Warnings "-inexact-float".

Local Open Scope float_scope.

(** ** JavaScript number helpers *)

(** [a > b] and [a >= b] on numbers; both are false when an operand is NaN. *)
Definition gtb (a b : float) : bool := b <? a.
Definition geb (a b : float) : bool := b <=? a.

(** An integral number (array length, millisecond difference) as a float;
    exact for every magnitude below 2^53, which covers all clock values. *)
Definition of_Z (z : Z) : float :=
  match z with
  | Z0 => 0
  | Zpos _ => of_uint63 (Uint63.of_Z z)
  | Zneg _ => - of_uint63 (Uint63.of_Z (Z.opp z))
  end.

Definition of_nat (n : nat) : float := of_Z (Z.of_nat n).

(** [Math.PI] *)
Definition PI : float := 3.141592653589793.

(** ** Sensor samples *)

Record Vec3 : Set := mkVec3 { vx : float; vy : float; vz : float }.

(** [Math.sqrt(x*x + y*y + z*z)] *)
Definition magnitude (v : Vec3) : float :=
  PrimFloat.sqrt (vx v * vx v + vy v * vy v + vz v * vz v).

(** ** utils/signalProcessing *)

(** [arr.reduce((sum, v) => sum + v*v, 0)] *)
Definition sumSquares (w : list float) : float :=
  fold_left (fun sum v => sum + v * v) w 0.

(** Root-mean-square of a window, as phase 3 of the reference writes it
    inline: [Math.sqrt(window.reduce((sum, v) => sum + v*v, 0) / window.length)]. *)
Definition calculateRMS (w : list float) : float :=
  PrimFloat.sqrt (sumSquares w / of_nat (length w)).

(** Modelled from the spec: [average] is called by [calibrate] but not defined
    in the sources; the spec says the bias and the baseline are the mean of
    the collected samples. *)
Definition average (w : list float) : float :=
  fold_left (fun sum v => sum + v) w 0 / of_nat (length w).

(** ** The THRESHOLDS table of the reference *)

Module THRESHOLDS.
Definition MAG_ATTACH_DELTA : float := 40.
Definition MAG_DETACH_DELTA : float := 20.
Definition STATIONARY_RMS : float := 0.03.
Definition STATIONARY_WINDOW : Z := 200.
Definition OMEGA_MIN : float := 30.
Definition OMEGA_STOP : float := 10.
Definition GYRO_BIAS_SAMPLES : Z := 100.
Definition DETENT_ANGLE : float := 30.
Definition DWELL_TIME : Z := 75.
Definition GESTURE_WINDOW : Z := 3000.
Definition CONFIRM_DETENTS : Z := 2.
Definition CANCEL_DETENTS : Z := -1.
Definition TILT_THRESHOLD : float := 8.
End THRESHOLDS.

(** ** State of the rotation detector hook *)

Record DetentEntry : Set := mkEntry { count : Z; time : Z }.

Record Detector : Set := mkDetector {
  isAttached : bool;                 (* useState(false) *)
  magBaseline : float;               (* useState(50) *)
  accelWindow : list float;          (* useRef<number[]>([]) *)
  isStationary : bool;
  angleAccum : float;                (* useRef(0) *)
  lastTime : Z;                      (* useRef(Date.now()) *)
  gyroBias : float;                  (* useRef(0) *)
  detents : Z;                       (* useState(0) *)
  detentHistory : list DetentEntry   (* useRef([]) *)
}.

(** The detector as the hooks create it at time [t0], before any sample and
    before any calibration.  The reference starts [magBaseline] at 50
    (ROTATION_POC.md at 0); the declaration of the [isStationary] cell is not
    in the sources and is taken to start at [false] like [isAttached]. *)
Definition initial (t0 : Z) : Detector :=
  {| isAttached := false; magBaseline := 50; accelWindow := [];
     isStationary := false; angleAccum := 0; lastTime := t0; gyroBias := 0;
     detents := 0; detentHistory := [] |}.

(** ** Phase 2: attachment detection *)

Definition magListener (d : Detector) (m : Vec3) : Detector :=
  let magnitude := magnitude m in
  let delta := magnitude - magBaseline d in
  {| isAttached := gtb delta 40;
     magBaseline := magBaseline d; accelWindow := accelWindow d;
     isStationary := isStationary d; angleAccum := angleAccum d;
     lastTime := lastTime d; gyroBias := gyroBias d;
     detents := detents d; detentHistory := detentHistory d |}.

(** ** Phase 3: stationarity gate *)

(** [push] then, when more than 20 values are held, [shift]. *)
Definition pushWindow (w : list float) (mag : float) : list float :=
  let w' := w ++ [mag] in
  if (20 <? length w')%nat then tl w' else w'.

Definition accelListener (d : Detector) (a : Vec3) : Detector :=
  let mag := magnitude a in
  let w := pushWindow (accelWindow d) mag in
  let rms := calculateRMS w in
  {| isAttached := isAttached d; magBaseline := magBaseline d;
     accelWindow := w;
     isStationary := rms <? 0.03;
     angleAccum := angleAccum d;
     lastTime := lastTime d; gyroBias := gyroBias d;
     detents := detents d; detentHistory := detentHistory d |}.

(** ** Callbacks and haptic requests issued by the hook *)

Inductive Effect : Set :=
| impactMedium          (* Haptics.impactAsync(ImpactFeedbackStyle.Medium) *)
| onConfirm
| notificationSuccess   (* Haptics.notificationAsync(Success) *)
| onCancel
| notificationWarning.  (* Haptics.notificationAsync(Warning) *)

(** ** Phase 4: rotation integration *)

Definition integrate (d : Detector) (now : Z) (z : float) : Detector :=
  let dt := of_Z (now - lastTime d) / 1000 in
  let acc :=
    if isAttached d && isStationary d then
      let omega := z - gyroBias d in
      if gtb (abs omega) 0.52 then angleAccum d + omega * dt else angleAccum d
    else angleAccum d in
  {| isAttached := isAttached d; magBaseline := magBaseline d;
     accelWindow := accelWindow d; isStationary := isStationary d;
     angleAccum := acc;
     lastTime := now;
     gyroBias := gyroBias d;
     detents := detents d; detentHistory := detentHistory d |}.

(** ** Phase 5: detent logic *)

(** [(30 * Math.PI) / 180] *)
Definition DETENT : float := (30 * PI) / 180.

(** The block placed in the rotation loop; the boolean tells whether
    [setDetents] was called, which is what schedules the phase 6 effect. *)
Definition detentLogic (d : Detector) : Detector * list Effect * bool :=
  if geb (abs (angleAccum d)) DETENT then
    let direction := if gtb (angleAccum d) 0 then 1%Z else (-1)%Z in
    ({| isAttached := isAttached d; magBaseline := magBaseline d;
        accelWindow := accelWindow d; isStationary := isStationary d;
        angleAccum := 0;
        lastTime := lastTime d; gyroBias := gyroBias d;
        detents := (detents d + direction)%Z;
        detentHistory := detentHistory d |},
     [impactMedium], true)
  else (d, [], false).

(** ** Phase 6: gesture recognition *)

(** Modelled from the spec: [resetGesture] is called by the effect but not
    defined in the sources; the spec's reset forces the zeroed state, so the
    detent count and the history are cleared. *)
Definition resetGesture (d : Detector) : Detector :=
  {| isAttached := isAttached d; magBaseline := magBaseline d;
     accelWindow := accelWindow d; isStationary := isStationary d;
     angleAccum := angleAccum d; lastTime := lastTime d;
     gyroBias := gyroBias d;
     detents := 0; detentHistory := [] |}.

(** [history.reduce((sum, d) => sum + d.count, 0)] *)
Definition totalCount (h : list DetentEntry) : Z :=
  fold_left (fun sum e => (sum + count e)%Z) h 0%Z.

(** [history.filter(d => now - d.time < 3000)] *)
Definition recent (now : Z) (h : list DetentEntry) : list DetentEntry :=
  filter (fun e => (now - time e <? 3000)%Z) h.

(** The body of [useEffect(..., [detents])], run at time [now]. *)
Definition gestureEffect (d : Detector) (now : Z) : Detector * list Effect :=
  let pushed := detentHistory d ++ [mkEntry (detents d) now] in
  let kept := recent now pushed in
  let d' :=
    {| isAttached := isAttached d; magBaseline := magBaseline d;
       accelWindow := accelWindow d; isStationary := isStationary d;
       angleAccum := angleAccum d; lastTime := lastTime d;
       gyroBias := gyroBias d;
       detents := detents d; detentHistory := kept |} in
  let total := totalCount kept in
  if (total >=? 2)%Z then (resetGesture d', [onConfirm; notificationSuccess])
  else if (total <=? -1)%Z then (resetGesture d', [onCancel; notificationWarning])
  else (d', []).

(** ** Calibration *)

(** How a call ends. *)
Inductive Completion : Set :=
| returned
| threwTypeError.

(** [calibrate()]: the two temporary listeners collect every gyro [z] and
    every magnetometer magnitude delivered during the 1000 ms wait; the
    arguments are the samples that arrived in that window.  [gyroBias] is a
    ref and receives the mean of the gyro samples.  [magBaseline] is the
    number held by [useState]: the next statement assigns to [.current] of
    that number (ROTATION_POC.md assigns to the [const] itself), which
    writes nothing and, in module code, throws; the baseline the
    magnetometer listener reads is left as it was and the two [remove()]
    calls are not reached. *)
Definition calibrate (d : Detector) (gyroSamples : list float)
    (magSamples : list Vec3) : Detector * Completion :=
  ({| isAttached := isAttached d;
      magBaseline := magBaseline d;
      accelWindow := accelWindow d; isStationary := isStationary d;
      angleAccum := angleAccum d; lastTime := lastTime d;
      gyroBias := average gyroSamples;
      detents := detents d; detentHistory := detentHistory d |},
   threwTypeError).

(** ** The detector driven by its inputs *)

Inductive Input : Set :=
| Mag (m : Vec3)
| Accel (a : Vec3)
| Gyro (now : Z) (z : float)
| Calibrate (gyroSamples : list float) (magSamples : list Vec3).

(** One gyroscope delivery: integration, the detent block, and, when the
    detent count changed, the gesture effect (run at the same clock value). *)
Definition gyroListener (d : Detector) (now : Z) (z : float)
    : Detector * list Effect :=
  let '(d1, haptics, changed) := detentLogic (integrate d now z) in
  if changed then
    let '(d2, results) := gestureEffect d1 now in (d2, haptics ++ results)
  else (d1, haptics).

Definition step (d : Detector) (i : Input) : Detector * list Effect :=
  match i with
  | Mag m => (magListener d m, [])
  | Accel a => (accelListener d a, [])
  | Gyro now z => gyroListener d now z
  | Calibrate g m => (fst (calibrate d g m), [])
  end.

Fixpoint run (d : Detector) (inputs : list Input) : Detector * list Effect :=
  match inputs with
  | [] => (d, [])
  | i :: rest =>
      let '(d1, out1) := step d i in
      let '(d2, out2) := run d1 rest in
      (d2, out1 ++ out2)
  end.

(** The hook after mounting at [t0]: React runs the phase 6 effect once with
    the initial detent count. *)
Definition mounted (t0 : Z) : Detector := fst (gestureEffect (initial t0) t0).

(** ** The detection-algorithm pseudocode of the reference *)

Module Pseudocode.

Definition DETENT_ANGLE : float := 30.  (* degrees *)
Definition OMEGA_MIN : float := 30.     (* deg/s *)
Definition MAG_THRESH : float := 40.    (* uT above baseline *)

Record State : Set := mkState { angleAccum : float; detentCount : Z }.

Definition start : State := {| angleAccum := 0; detentCount := 0 |}.

Inductive Action : Set := triggerHaptic | confirmPayment | cancelPayment.

(** The free variables of [onSensorUpdate]. *)
Record Env : Set := mkEnv { baseline : float; gyroBias : float; dt : float }.

(** [onSensorUpdate(gyro, accel, mag)]; [accel] stands for the window of
    accelerometer magnitudes that [calculateRMS] reads. *)
Definition onSensorUpdate (env : Env) (s : State)
    (gyro : Vec3) (accel : list float) (mag : Vec3) : State * list Action :=
  let isAttached := gtb (magnitude mag - baseline env) MAG_THRESH in
  let isStationary := calculateRMS accel <? 0.03 in
  let omega_z := vz gyro - gyroBias env in
  if isAttached && isStationary && gtb (abs omega_z) OMEGA_MIN then
    let acc := angleAccum s + omega_z * dt env in
    if geb (abs acc) DETENT_ANGLE then
      let n := (detentCount s + (if gtb acc 0 then 1 else -1))%Z in
      let s' := {| angleAccum := 0; detentCount := n |} in
      if (n >=? 2)%Z then (s', [triggerHaptic; confirmPayment])
      else if (n <=? -1)%Z then (s', [triggerHaptic; cancelPayment])
      else (s', [triggerHaptic])
    else ({| angleAccum := acc; detentCount := detentCount s |}, [])
  else (s, []).

(** One call of [onSensorUpdate] per triple of readings, in order. *)
Fixpoint updates (env : Env) (s : State)
    (readings : list (Vec3 * list float * Vec3)) : State * list Action :=
  match readings with
  | [] => (s, [])
  | (gyro, accel, mag) :: rest =>
      let '(s1, out1) := onSensorUpdate env s gyro accel mag in
      let '(s2, out2) := updates env s1 rest in
      (s2, out1 ++ out2)
  end.

Definition isHaptic (a : Action) : bool :=
  match a with triggerHaptic => true | _ => false end.

End Pseudocode.

(** ** The magnetometer and gyro listeners as ROTATION_POC.md writes them *)

Module POC.

(** [30 * (Math.PI / 180)] *)
Definition DETENT_ANGLE : float := 30 * (PI / 180).

Definition GESTURE_WINDOW : Z := 3000.

(** Phase 2, with the explicit [if]/[else]. *)
Definition magListener (d : Detector) (m : Vec3) : Detector :=
  let magnitude := magnitude m in
  let delta := magnitude - magBaseline d in
  {| isAttached := if gtb delta 40 then true else false;
     magBaseline := magBaseline d; accelWindow := accelWindow d;
     isStationary := isStationary d; angleAccum := angleAccum d;
     lastTime := lastTime d; gyroBias := gyroBias d;
     detents := detents d; detentHistory := detentHistory d |}.

(** Phase 4: the rate is computed first and one condition gates the sum. *)
Definition integrate (d : Detector) (now : Z) (z : float) : Detector :=
  let dt := of_Z (now - lastTime d) / 1000 in
  let omega_z := z - gyroBias d in
  {| isAttached := isAttached d; magBaseline := magBaseline d;
     accelWindow := accelWindow d; isStationary := isStationary d;
     angleAccum :=
       if isAttached d && isStationary d && gtb (abs omega_z) 0.52
       then angleAccum d + omega_z * dt else angleAccum d;
     lastTime := now;
     gyroBias := gyroBias d;
     detents := detents d; detentHistory := detentHistory d |}.

(** Phase 5. *)
Definition detentLogic (d : Detector) : Detector * list Effect * bool :=
  if geb (abs (angleAccum d)) DETENT_ANGLE then
    let direction := if gtb (angleAccum d) 0 then 1%Z else (-1)%Z in
    ({| isAttached := isAttached d; magBaseline := magBaseline d;
        accelWindow := accelWindow d; isStationary := isStationary d;
        angleAccum := 0;
        lastTime := lastTime d; gyroBias := gyroBias d;
        detents := (detents d + direction)%Z;
        detentHistory := detentHistory d |},
     [impactMedium], true)
  else (d, [], false).

(** Phase 6: the callbacks without the notification haptics. *)
Definition gestureEffect (d : Detector) (now : Z) : Detector * list Effect :=
  let pushed := detentHistory d ++ [mkEntry (detents d) now] in
  let kept := filter (fun e => (now - time e <? GESTURE_WINDOW)%Z) pushed in
  let d' :=
    {| isAttached := isAttached d; magBaseline := magBaseline d;
       accelWindow := accelWindow d; isStationary := isStationary d;
       angleAccum := angleAccum d; lastTime := lastTime d;
       gyroBias := gyroBias d;
       detents := detents d; detentHistory := kept |} in
  let total := totalCount kept in
  if (total >=? 2)%Z then (resetGesture d', [onConfirm])
  else if (total <=? -1)%Z then (resetGesture d', [onCancel])
  else (d', []).

Definition gyroListener (d : Detector) (now : Z) (z : float)
    : Detector * list Effect :=
  let '(d1, haptics, changed) := detentLogic (integrate d now z) in
  if changed then
    let '(d2, results) := gestureEffect d1 now in (d2, haptics ++ results)
  else (d1, haptics).

End POC.

(** The notification haptics, which only the reference requests. *)
Definition isNotification (e : Effect) : bool :=
  match e with
  | notificationSuccess | notificationWarning => true
  | _ => false
  end.

(** [d] with its reference time moved to [now]. *)
Definition withLastTime (d : Detector) (now : Z) : Detector :=
  {| isAttached := isAttached d; magBaseline := magBaseline d;
     accelWindow := accelWindow d; isStationary := isStationary d;
     angleAccum := angleAccum d; lastTime := now; gyroBias := gyroBias d;
     detents := detents d; detentHistory := detentHistory d |}.

(** The arrival time of the last gyro delivery of a run, [t] when there is
    none. *)
Fixpoint lastGyro (t : Z) (inputs : list Input) : Z :=
  match inputs with
  | [] => t
  | Gyro now _ :: rest => lastGyro now rest
  | _ :: rest => lastGyro t rest
  end.

(** ** Traces used in the scenarios *)

(** Gyroscope deliveries every 10 ms (the 100 Hz update interval), the first
    one at [start], carrying the readings [zs]. *)
Fixpoint gyroTrain (start : Z) (zs : list float) : list Input :=
  match zs with
  | [] => []
  | z :: rest => Gyro start z :: gyroTrain (start + 10)%Z rest
  end.

(** A phone resting on the mount: field 50 uT above the default baseline and
    an accelerometer window well under the stationarity threshold. *)
Definition docked : list Input :=
  [Mag (mkVec3 100 0 0); Accel (mkVec3 0 0 0.01)].

Definition isCalibrate (i : Input) : bool :=
  match i with Calibrate _ _ => true | _ => false end.

(** No calibration takes place in [inputs]. *)
Definition uncalibrated (inputs : list Input) : bool :=
  forallb (fun i => negb (isCalibrate i)) inputs.

(** The deliveries of a run that called back or requested a haptic pulse,
    each with what it emitted. *)
Fixpoint emissions (d : Detector) (inputs : list Input)
    : list (Input * list Effect) :=
  match inputs with
  | [] => []
  | i :: rest =>
      let '(d1, out) := step d i in
      match out with
      | [] => emissions d1 rest
      | _ :: _ => (i, out) :: emissions d1 rest
      end
  end.

(** The accelerometer vectors of a run, in delivery order. *)
Definition accels (inputs : list Input) : list Vec3 :=
  flat_map (fun i => match i with Accel a => [a] | _ => [] end) inputs.

(** The last [n] elements of a list (all of it when it is shorter). *)
Definition lastN {A : Type} (n : nat) (l : list A) : list A :=
  skipn (length l - n) l.

(** The detent test of phase 5 fails on the accumulator of [d]. *)
Definition belowDetent (d : Detector) : Prop :=
  geb (abs (angleAccum d)) DETENT = false.

(** The accumulator of [d] is a number strictly inside one detent. *)
Definition insideDetent (d : Detector) : Prop :=
  (abs (angleAccum d) <? DETENT) = true.

(** Every gyro delivery of the run meets a finite bias-compensated rate
    [z - gyroBias]. *)
Fixpoint finiteRates (d : Detector) (inputs : list Input) : bool :=
  match inputs with
  | [] => true
  | i :: rest =>
      match i with
      | Gyro _ z => is_finite (z - gyroBias d)
      | _ => true
      end && finiteRates (fst (step d i)) rest
  end.

(** Classes of binary64 values, on their specification. *)
Definition SFfinite (x : spec_float) : Prop :=
  match x with S754_finite _ _ _ => True | _ => False end.

Definition SFbounded (x : spec_float) : Prop :=
  match x with S754_finite _ _ _ | S754_zero _ => True | _ => False end.

(** ** What the specification asks for, in its own words *)

(** The stationarity window of the specification: the magnitudes of the
    accelerometer samples whose timestamps fall within the last
    STATIONARY_WINDOW milliseconds before [now]. *)
Definition timePrunedWindow (now : Z) (samples : list (Z * Vec3)) : list float :=
  map (fun s => magnitude (snd s))
      (filter (fun s => (now - fst s <=? THRESHOLDS.STATIONARY_WINDOW)%Z) samples).

(** The integration interval of the specification: the wall-clock delta in
    seconds, clamped to 50 ms. *)
Definition clampedDt (dt : float) : float :=
  if gtb dt 0.05 then 0.05 else dt.

(** Modelled from the spec: the sources hold no tilt computation; the spec
    compares the accelerometer direction with the one at calibration time
    against TILT_THRESHOLD = 8 degrees.  The angle between [ref] and [cur]
    exceeds 8 degrees exactly when their dot product is below
    cos(8 degrees) times the product of their magnitudes. *)
Definition tiltExceeded (ref cur : Vec3) : bool :=
  vx ref * vx cur + vy ref * vy cur + vz ref * vz cur
  <? 0.9902680687415704 * (magnitude ref * magnitude cur).

(** * Properties *)

(** ** Fields left alone by the listeners *)

Lemma detentLogic_gates (d : Detector) :
  let d' := fst (fst (detentLogic d)) in
  isAttached d' = isAttached d /\ isStationary d' = isStationary d /\
  magBaseline d' = magBaseline d /\ gyroBias d' = gyroBias d /\
  accelWindow d' = accelWindow d.
Proof.
  unfold detentLogic.
  destruct (geb (abs (angleAccum d)) DETENT); cbn; repeat split.
Qed.

Lemma gestureEffect_gates (d : Detector) (now : Z) :
  let d' := fst (gestureEffect d now) in
  isAttached d' = isAttached d /\ isStationary d' = isStationary d /\
  magBaseline d' = magBaseline d /\ gyroBias d' = gyroBias d /\
  accelWindow d' = accelWindow d.
Proof.
  unfold gestureEffect.
  destruct (_ >=? 2)%Z; [cbn; repeat split|].
  destruct (_ <=? -1)%Z; cbn; repeat split.
Qed.

Lemma gyroListener_gates (d : Detector) (now : Z) (z : float) :
  let d' := fst (gyroListener d now z) in
  isAttached d' = isAttached d /\ isStationary d' = isStationary d /\
  magBaseline d' = magBaseline d /\ gyroBias d' = gyroBias d /\
  accelWindow d' = accelWindow d.
Proof.
  unfold gyroListener.
  pose proof (detentLogic_gates (integrate d now z)) as Hd.
  destruct (detentLogic (integrate d now z)) as [[d1 h] c]; cbn in Hd.
  destruct c.
  - pose proof (gestureEffect_gates d1 now) as Hg.
    destruct (gestureEffect d1 now) as [d2 r]; cbn in *.
    intuition congruence.
  - cbn. exact Hd.
Qed.

Lemma gestureEffect_angle (d : Detector) (now : Z) :
  angleAccum (fst (gestureEffect d now)) = angleAccum d.
Proof.
  unfold gestureEffect.
  destruct (_ >=? 2)%Z; [reflexivity|].
  destruct (_ <=? -1)%Z; reflexivity.
Qed.

(** A gyro delivery leaves the integrated angle in place unless it crossed
    the detent threshold, in which case the accumulator is exactly 0. *)
Lemma gyroListener_angle (d : Detector) (now : Z) (z : float) :
  angleAccum (fst (gyroListener d now z)) =
  if geb (abs (angleAccum (integrate d now z))) DETENT then 0
  else angleAccum (integrate d now z).
Proof.
  unfold gyroListener, detentLogic.
  destruct (geb (abs (angleAccum (integrate d now z))) DETENT).
  - match goal with
    | |- context [gestureEffect ?x ?n] =>
        pose proof (gestureEffect_angle x n) as G;
        destruct (gestureEffect x n) as [d2 r]
    end.
    exact G.
  - reflexivity.
Qed.

Lemma fst_run_cons (d : Detector) (i : Input) (rest : list Input) :
  fst (run d (i :: rest)) = fst (run (fst (step d i)) rest).
Proof.
  cbn [run]. destruct (step d i) as [d1 o1]. cbn [fst].
  now destruct (run d1 rest).
Qed.

(** Without a calibration the baseline and the bias keep their defaults. *)
Lemma uncalibrated_defaults (inputs : list Input) (d : Detector) :
  uncalibrated inputs = true ->
  magBaseline (fst (run d inputs)) = magBaseline d /\
  gyroBias (fst (run d inputs)) = gyroBias d.
Proof.
  revert d; induction inputs as [|i rest IH]; intros d Hu; cbn; [now split|].
  cbn in Hu. apply andb_true_iff in Hu as [Hi Hr].
  destruct (step d i) as [d1 o1] eqn:Hs.
  specialize (IH d1 Hr). destruct (run d1 rest) as [d2 o2]. cbn in *.
  assert (magBaseline d1 = magBaseline d /\ gyroBias d1 = gyroBias d) as [E1 E2];
    [|rewrite <- E1, <- E2; exact IH].
  destruct i; cbn in Hs; try discriminate Hi.
  - inversion Hs; subst; now split.
  - inversion Hs; subst; now split.
  - pose proof (gyroListener_gates d now z) as Hg. rewrite Hs in Hg.
    cbn in Hg. intuition.
Qed.

Lemma mounted_defaults (t0 : Z) :
  magBaseline (mounted t0) = 50 /\ gyroBias (mounted t0) = 0 /\
  isAttached (mounted t0) = false /\ isStationary (mounted t0) = false.
Proof.
  pose proof (gestureEffect_gates (initial t0) t0) as H. cbn in H.
  unfold mounted. intuition.
Qed.

(** ** Attachment gate *)

(** A docked, uncalibrated phone is reported attached and stationary. *)
Lemma uncalibrated_gates_open :
  ~ (forall t0 inputs, uncalibrated inputs = true ->
       isAttached (fst (run (mounted t0) inputs)) = false /\
       isStationary (fst (run (mounted t0) inputs)) = false).
Proof.
  intros H. specialize (H 0%Z docked eq_refl). destruct H as [H _].
  vm_compute in H. discriminate H.
Qed.

(** C2 (as amended): before any calibration the gates are not forced to
    false; they run on the default baseline of 50: after any uncalibrated
    run, a magnetometer sample sets [isAttached] exactly when its magnitude
    minus 50 exceeds 40, and an accelerometer sample sets [isStationary]
    exactly when the RMS of the updated window is below 0.03. *)
Theorem uncalibrated_gates_use_defaults (t0 : Z) (inputs : list Input) :
  uncalibrated inputs = true ->
  let d := fst (run (mounted t0) inputs) in
  (forall m, isAttached (fst (step d (Mag m))) = gtb (magnitude m - 50) 40) /\
  (forall a, isStationary (fst (step d (Accel a))) =
             (calculateRMS (pushWindow (accelWindow d) (magnitude a)) <? 0.03)).
Proof.
  intros Hu d. destruct (uncalibrated_defaults inputs (mounted t0) Hu) as [Hb _].
  destruct (mounted_defaults t0) as [Hm _].
  split; intros; cbn; [|reflexivity].
  fold d in Hb. rewrite Hb, Hm. reflexivity.
Qed.

Lemma uncalibrated_gates_use_defaults_witness :
  let d := fst (run (mounted 0) docked) in
  (forall m, isAttached (fst (step d (Mag m))) = gtb (magnitude m - 50) 40) /\
  (forall a, isStationary (fst (step d (Accel a))) =
             (calculateRMS (pushWindow (accelWindow d) (magnitude a)) <? 0.03)).
Proof.
  apply (uncalibrated_gates_use_defaults 0 docked). reflexivity.
Defined.

(** The attachment flag is recomputed from the sample alone; the flag held
    before the sample is never consulted. *)
Lemma magListener_single_threshold (d : Detector) (m : Vec3) :
  isAttached (fst (step d (Mag m))) = gtb (magnitude m - magBaseline d) 40.
Proof. reflexivity. Qed.

(** C4: the attachment listener has a single threshold.  A phone that is
    attached (delta 50) and then reads a delta of 30, which is not below
    MAG_DETACH_DELTA = 20, is reported detached. *)
Theorem attach_no_hysteresis :
  let d1 := fst (run (mounted 0) [Mag (mkVec3 100 0 0)]) in
  let m := mkVec3 80 0 0 in
  isAttached d1 = true /\
  magnitude m - magBaseline d1 = 30 /\
  geb (magnitude m - magBaseline d1) THRESHOLDS.MAG_DETACH_DELTA = true /\
  isAttached (fst (step d1 (Mag m))) = false.
Proof. vm_compute. repeat split. Qed.

(** ** Stationarity gate *)

Lemma lastN_length {A : Type} (n : nat) (l : list A) :
  (length (lastN n l) <= n)%nat.
Proof. unfold lastN. rewrite length_skipn. lia. Qed.

Lemma lastN_short {A : Type} (n : nat) (l : list A) :
  (length l <= n)%nat -> lastN n l = l.
Proof.
  intros H. unfold lastN. replace (length l - n)%nat with 0%nat by lia.
  reflexivity.
Qed.

Lemma lastN_snoc {A : Type} (n : nat) (l : list A) (x : A) :
  lastN n (lastN n l ++ [x]) = lastN n (l ++ [x]).
Proof.
  destruct (Nat.le_gt_cases (length l) n) as [Hs|Hl].
  - now rewrite (lastN_short n l Hs).
  - unfold lastN.
    rewrite !length_app, length_skipn; cbn [length].
    replace (length l - (length l - n) + 1 - n)%nat with 1%nat by lia.
    replace (length l + 1 - n)%nat with (1 + (length l - n))%nat by lia.
    rewrite <- (skipn_skipn 1 (length l - n) (l ++ [x])).
    rewrite (skipn_app (length l - n) l [x]).
    replace (length l - n - length l)%nat with 0%nat by lia.
    reflexivity.
Qed.

(** [push] followed by the conditional [shift] keeps the 20 newest values. *)
Lemma pushWindow_lastN (w : list float) (m : float) :
  (length w <= 20)%nat -> pushWindow w m = lastN 20 (w ++ [m]).
Proof.
  intros H. unfold pushWindow, lastN.
  rewrite length_app; cbn [length].
  destruct (Nat.ltb_spec 20 (length w + 1)) as [Hgt|Hle].
  - replace (length w + 1 - 20)%nat with 1%nat by lia.
    destruct (w ++ [m]); reflexivity.
  - replace (length w + 1 - 20)%nat with 0%nat by lia. reflexivity.
Qed.

Lemma accel_window_invariant (inputs : list Input) (d : Detector)
    (seen : list float) :
  accelWindow d = lastN 20 seen ->
  isStationary d = (calculateRMS (accelWindow d) <? 0.03) ->
  let d' := fst (run d inputs) in
  accelWindow d' = lastN 20 (seen ++ map magnitude (accels inputs)) /\
  isStationary d' = (calculateRMS (accelWindow d') <? 0.03).
Proof.
  revert d seen; induction inputs as [|i rest IH]; intros d seen Hw Hs d'.
  - subst d'. cbn [run fst accels flat_map map]. rewrite app_nil_r. now split.
  - subst d'. rewrite fst_run_cons.
    destruct i as [m|a|now z|g m]; unfold accels; cbn [flat_map app step fst];
      fold (accels rest).
    + apply IH; assumption.
    + cbn [map].
      replace (seen ++ magnitude a :: map magnitude (accels rest))
        with ((seen ++ [magnitude a]) ++ map magnitude (accels rest))
        by now rewrite <- app_assoc.
      apply IH; [|reflexivity].
      cbn [accelListener accelWindow].
      rewrite Hw, pushWindow_lastN by apply lastN_length.
      apply lastN_snoc.
    + pose proof (gyroListener_gates d now z) as (_ & G2 & _ & _ & G5).
      apply IH; congruence.
    + apply IH; assumption.
Qed.

(** Two accelerometer samples one second apart are both in the window,
    although only the second lies within the last 200 ms. *)
Lemma accel_window_not_time_pruned :
  ~ (forall (samples : list (Z * Vec3)),
       accelWindow (fst (run (mounted 0) (map (fun s => Accel (snd s)) samples)))
       = timePrunedWindow (last (map fst samples) 0%Z) samples).
Proof.
  intros H.
  specialize (H [(0%Z, mkVec3 0 0 1); (1000%Z, mkVec3 0 0 2)]).
  vm_compute in H. discriminate H.
Qed.

(** C9 (as amended): the stationarity window is pruned by count, not by
    timestamp: after any run it holds the magnitudes of the 20 most recent
    accelerometer samples (all of them while fewer than 20 arrived),
    whatever their arrival times, and [isStationary] is the comparison of the
    RMS of exactly that window with 0.03. *)
Theorem accel_window_keeps_last_20 (t0 : Z) (inputs : list Input) :
  let d := fst (run (mounted t0) inputs) in
  accelWindow d = lastN 20 (map magnitude (accels inputs)) /\
  isStationary d = (calculateRMS (accelWindow d) <? 0.03).
Proof.
  pose proof (gestureEffect_gates (initial t0) t0) as (_ & Hs & _ & _ & Hw).
  apply (accel_window_invariant inputs (mounted t0) []).
  - unfold mounted. rewrite Hw. reflexivity.
  - unfold mounted. rewrite Hs, Hw. reflexivity.
Qed.

(** ** Rotation integration *)

Lemma integrate_lastTime (d : Detector) (now : Z) (z : float) :
  lastTime (integrate d now z) = now.
Proof. reflexivity. Qed.

(** After a delivery gap of one second a reading of 1 rad/s adds a full
    radian, twenty times what a 50 ms clamp would allow. *)
Lemma integrate_not_clamped :
  ~ (forall d now z,
       isAttached d && isStationary d = true ->
       gtb (abs (z - gyroBias d)) 0.52 = true ->
       angleAccum (integrate d now z) =
       angleAccum d
       + (z - gyroBias d) * clampedDt (of_Z (now - lastTime d) / 1000)).
Proof.
  intros H.
  specialize (H (fst (run (mounted 0) docked)) 1000%Z 1 eq_refl eq_refl).
  apply (f_equal (fun a => a <? 0.5)) in H. vm_compute in H. discriminate H.
Qed.

(** A gyro delivery always moves the reference time to its own arrival. *)
Lemma gyroListener_lastTime (d : Detector) (now : Z) (z : float) :
  lastTime (fst (gyroListener d now z)) = now.
Proof.
  unfold gyroListener, detentLogic.
  destruct (geb (abs (angleAccum (integrate d now z))) DETENT).
  - unfold gestureEffect.
    destruct (_ >=? 2)%Z; [reflexivity|].
    destruct (_ <=? -1)%Z; reflexivity.
  - reflexivity.
Qed.

(** C7 (as amended): for a gyro sample integrated while attached and
    stationary with |omega| > 0.52 rad/s, angleAccum increases by exactly
    omega * dt where dt is the unclamped wall-clock delta, in seconds, since
    the previous gyro delivery (integrated or not); no maximum is applied.
    The delivery then ends with that sum, or with 0 when the sum crossed the
    detent angle, and with its own arrival time as the new reference. *)
Theorem integrate_adds_omega_dt (d : Detector) (now : Z) (z : float) :
  isAttached d = true -> isStationary d = true ->
  gtb (abs (z - gyroBias d)) 0.52 = true ->
  let acc :=
    angleAccum d + (z - gyroBias d) * (of_Z (now - lastTime d) / 1000) in
  angleAccum (integrate d now z) = acc /\
  angleAccum (fst (step d (Gyro now z))) =
    (if geb (abs acc) DETENT then 0 else acc) /\
  lastTime (fst (step d (Gyro now z))) = now.
Proof.
  intros Ha Hs Ho acc.
  assert (angleAccum (integrate d now z) = acc) as Hi.
  { unfold integrate; cbn [angleAccum]. now rewrite Ha, Hs, Ho. }
  split; [exact Hi|split].
  - cbn [step]. now rewrite gyroListener_angle, Hi.
  - apply gyroListener_lastTime.
Qed.

Lemma integrate_adds_omega_dt_witness :
  let d := fst (run (mounted 0) docked) in
  angleAccum (integrate d 1000 1) = 1 /\
  angleAccum (fst (step d (Gyro 1000 1))) = 0 /\
  lastTime (fst (step d (Gyro 1000 1))) = 1000%Z.
Proof.
  apply (integrate_adds_omega_dt (fst (run (mounted 0) docked)) 1000 1);
    reflexivity.
Defined.

(** ** Calibration *)

(** A calibration window that saw a single gyro sample replaces the bias of
    an earlier calibration, whatever minimum one had in mind. *)
Lemma calibrate_overwrites :
  ~ (forall (minSamples : nat) d gyroSamples magSamples,
       (length gyroSamples < minSamples)%nat \/
       (length magSamples < minSamples)%nat ->
       fst (step d (Calibrate gyroSamples magSamples)) = d).
Proof.
  intros H.
  pose (d := fst (run (mounted 0)
                   [Calibrate [0.25; 0.25] [mkVec3 60 0 0; mkVec3 60 0 0]])).
  specialize (H 100%nat d [0.5] [mkVec3 70 0 0]).
  apply (f_equal (fun x => gyroBias x =? 0.25)) in H; [|left; cbn; lia].
  vm_compute in H. discriminate H.
Qed.

(** C3 (as amended): calibrate takes no minimum and has no
    insufficient-samples path: when its one-second window closes it
    overwrites gyroBias with the mean of the collected gyro z samples,
    however few arrived, so the previous bias is not retained; the new bias
    stays in force until the next calibration, and the call changes neither
    the gate flags, the window, the accumulator, the reference time, the
    detent count nor the history. *)
Theorem calibrate_always_installs (d : Detector) (gyroSamples : list float)
    (magSamples : list Vec3) (later : list Input) :
  uncalibrated later = true ->
  let r := step d (Calibrate gyroSamples magSamples) in
  let d' := fst (run (fst r) later) in
  snd r = [] /\
  isAttached (fst r) = isAttached d /\ isStationary (fst r) = isStationary d /\
  accelWindow (fst r) = accelWindow d /\ angleAccum (fst r) = angleAccum d /\
  lastTime (fst r) = lastTime d /\ detents (fst r) = detents d /\
  detentHistory (fst r) = detentHistory d /\
  gyroBias d' = average gyroSamples.
Proof.
  intros Hu r d'.
  destruct (uncalibrated_defaults later (fst r) Hu) as [_ Hg].
  fold d' in Hg. cbn in Hg.
  repeat (split; [reflexivity|]). exact Hg.
Qed.

Lemma calibrate_always_installs_witness :
  let d' :=
    fst (run (mounted 0)
           (Calibrate [0.5] [mkVec3 70 0 0] :: [Mag (mkVec3 100 0 0)])) in
  gyroBias d' = 0.5.
Proof.
  pose proof (calibrate_always_installs (mounted 0) [0.5] [mkVec3 70 0 0]
                [Mag (mkVec3 100 0 0)] eq_refl) as H.
  cbv zeta in H. destruct H as (_ & _ & _ & _ & _ & _ & _ & _ & Hg).
  exact Hg.
Defined.

(** ** Comparisons of binary64 values *)

Lemma SFcompare_antisym (x y : spec_float) :
  SFcompare y x = option_map CompOpp (SFcompare x y).
Proof.
  destruct x as [sx|sx| |sx mx ex], y as [sy|sy| |sy my ey]; cbn;
    try reflexivity;
    try (destruct sx; reflexivity); try (destruct sy; reflexivity);
    try (destruct sx, sy; reflexivity).
  destruct sx, sy; cbn; try reflexivity;
    rewrite (Z.compare_antisym ey ex);
    destruct (ey ?= ex)%Z; cbn; try reflexivity;
    pose proof (Pos.compare_cont_antisym mx my Eq) as A; cbn in A;
    destruct (Pos.compare_cont Eq mx my), (Pos.compare_cont Eq my mx);
    cbn in *; congruence.
Qed.

(** On numbers, "not [x >= y]" is [x < y]. *)
Lemma not_geb_ltb (x y : float) :
  Prim2SF x <> S754_nan -> Prim2SF y <> S754_nan ->
  geb x y = false -> (x <? y) = true.
Proof.
  intros Hx Hy. unfold geb. rewrite leb_spec, ltb_spec. unfold SFleb, SFltb.
  rewrite (SFcompare_antisym (Prim2SF x) (Prim2SF y)).
  destruct (SFcompare (Prim2SF x) (Prim2SF y)) as [[| |]|] eqn:E; cbn;
    try congruence.
  destruct (Prim2SF x), (Prim2SF y); cbn in E; congruence.
Qed.

(** ** Rounding never invents a NaN *)

Section Rounding.
Variables prec emax : Z.

Lemma shr_1_nonneg (mrs : shr_record) :
  (0 <= shr_m mrs)%Z -> (0 <= shr_m (shr_1 mrs))%Z.
Proof.
  destruct mrs as [m r s]; cbn. intros H.
  destruct m as [|[p|p|]|p]; cbn; lia.
Qed.

Lemma iter_shr_1_nonneg (p : positive) (mrs : shr_record) :
  (0 <= shr_m mrs)%Z -> (0 <= shr_m (iter_pos shr_1 p mrs))%Z.
Proof.
  revert mrs; induction p as [p IH|p IH|]; intros mrs H; cbn.
  - apply IH, IH, shr_1_nonneg, H.
  - apply IH, IH, H.
  - apply shr_1_nonneg, H.
Qed.

Lemma shr_fexp_nonneg (m e : Z) (l : location) :
  (0 <= m)%Z -> (0 <= shr_m (fst (shr_fexp prec emax m e l)))%Z.
Proof.
  intros H. unfold shr_fexp, shr.
  assert (0 <= shr_m (shr_record_of_loc m l))%Z as H0
    by (destruct l as [|[| |]]; exact H).
  destruct (_ - e)%Z; cbn [fst]; try exact H0.
  apply iter_shr_1_nonneg, H0.
Qed.

Lemma round_nearest_even_nonneg (m : Z) (l : location) :
  (0 <= m)%Z -> (0 <= round_nearest_even m l)%Z.
Proof.
  intros H. destruct l as [|[| |]]; cbn; try lia.
  destruct (Z.even m); lia.
Qed.

Lemma binary_round_aux_not_nan (sx : bool) (mx ex : Z) (lx : location) :
  (0 <= mx)%Z -> binary_round_aux prec emax sx mx ex lx <> S754_nan.
Proof.
  intros H. unfold binary_round_aux.
  pose proof (shr_fexp_nonneg mx ex lx H) as H1.
  destruct (shr_fexp prec emax mx ex lx) as [mrs' e']. cbn [fst] in H1.
  pose proof (shr_fexp_nonneg _ e' loc_Exact
                (round_nearest_even_nonneg _ (loc_of_shr_record mrs') H1)) as H2.
  destruct (shr_fexp prec emax _ e' loc_Exact) as [mrs'' e'']. cbn [fst] in H2.
  destruct (shr_m mrs'') as [|m|m]; [discriminate| |lia].
  destruct (e'' <=? emax - prec)%Z; discriminate.
Qed.

Lemma binary_normalize_not_nan (m e : Z) (szero : bool) :
  binary_normalize prec emax m e szero <> S754_nan.
Proof.
  unfold binary_normalize, binary_round.
  destruct m as [|m|m]; [discriminate| |];
    destruct (shl_align _ _ _) as [mz ez];
    apply binary_round_aux_not_nan; lia.
Qed.

Lemma SFmul_not_nan (x y : spec_float) :
  SFfinite x -> y <> S754_nan -> SFmul prec emax x y <> S754_nan.
Proof.
  destruct x as [| | |sx mx ex]; cbn; try contradiction. intros _ Hy.
  destruct y as [sy|sy| |sy my ey]; try discriminate; [congruence|].
  apply binary_round_aux_not_nan; lia.
Qed.

Lemma SFadd_not_nan (x y : spec_float) :
  SFbounded x -> y <> S754_nan -> SFadd prec emax x y <> S754_nan.
Proof.
  destruct x as [sx| | |sx mx ex]; cbn; try contradiction; intros _ Hy;
    destruct y as [sy|sy| |sy my ey]; try discriminate; try congruence.
  - destruct sx, sy; discriminate.
  - apply binary_normalize_not_nan.
Qed.

Lemma SFdiv_not_nan (x y : spec_float) :
  x <> S754_nan -> SFfinite y -> SFdiv prec emax x y <> S754_nan.
Proof.
  destruct y as [| | |sy my ey]; cbn; try contradiction. intros Hx _.
  destruct x as [sx|sx| |sx mx ex]; try discriminate; [congruence|].
  unfold SFdiv. unfold SFdiv_core_binary.
  set (m' := match _ with Zpos _ => _ | Z0 => _ | Zneg _ => _ end).
  assert (0 <= m')%Z as Hm.
  { subst m'. destruct (_ - _ - _)%Z; try lia. apply Z.shiftl_nonneg. lia. }
  pose proof (Z.div_pos m' (Zpos my) Hm eq_refl) as Hq.
  unfold Z.div in Hq. destruct (Z.div_eucl m' (Zpos my)) as [q r].
  apply binary_round_aux_not_nan, Hq.
Qed.

End Rounding.

Lemma Prim2SF_nan (x : float) : Prim2SF x = S754_nan -> is_nan x = true.
Proof.
  unfold Prim2SF. destruct (is_nan x); [reflexivity|].
  destruct (is_zero x); [discriminate|].
  destruct (is_infinity x); [discriminate|].
  destruct (Z.frexp x) as [r e].
  destruct (shr_fexp _ _ _ _ _) as [s e'].
  destruct (shr_m s); discriminate.
Qed.

Lemma Prim2SF_infinity (x : float) (s : bool) :
  Prim2SF x = S754_infinity s -> is_infinity x = true.
Proof.
  unfold Prim2SF. destruct (is_nan x); [discriminate|].
  destruct (is_zero x); [discriminate|].
  destruct (is_infinity x); [reflexivity|].
  destruct (Z.frexp x) as [r e].
  destruct (shr_fexp _ _ _ _ _) as [s' e'].
  destruct (shr_m s'); discriminate.
Qed.

Lemma ltb_abs_bounded (a D : float) :
  (abs a <? D) = true -> SFbounded (Prim2SF a).
Proof.
  rewrite ltb_spec, abs_spec. unfold SFltb.
  destruct (Prim2SF a) as [s|s| |s m e]; cbn; try exact (fun _ => I).
  - destruct (Prim2SF D) as [s'|[|]| |s' m' e']; cbn; discriminate.
  - discriminate.
Qed.

Lemma fast_rate_finite (w : float) :
  is_finite w = true -> gtb (abs w) 0.52 = true -> SFfinite (Prim2SF w).
Proof.
  unfold is_finite, gtb. intros Hf Hg.
  apply negb_true_iff, orb_false_iff in Hf as [Hn Hi].
  rewrite ltb_spec, abs_spec in Hg.
  destruct (Prim2SF w) as [s|s| |s m e] eqn:E; cbn.
  - vm_compute in Hg. discriminate Hg.
  - apply Prim2SF_infinity in E. congruence.
  - apply Prim2SF_nan in E. congruence.
  - exact I.
Qed.

Lemma of_Z_not_nan (k : Z) : Prim2SF (of_Z k) <> S754_nan.
Proof.
  destruct k as [|p|p]; cbn [of_Z].
  - vm_compute. discriminate.
  - rewrite of_uint63_spec. apply binary_normalize_not_nan.
  - rewrite opp_spec, of_uint63_spec.
    pose proof (binary_normalize_not_nan prec emax
                  (Uint63.to_Z (Uint63.of_Z (- Z.neg p))) 0 false) as H.
    destruct (binary_normalize _ _ _ _ _); cbn; congruence.
Qed.

Lemma integrated_not_nan (a w : float) (k : Z) :
  SFbounded (Prim2SF a) -> SFfinite (Prim2SF w) ->
  Prim2SF (a + w * (of_Z k / 1000)) <> S754_nan.
Proof.
  intros Ha Hw. rewrite add_spec, mul_spec, div_spec.
  apply SFadd_not_nan; [exact Ha|].
  apply SFmul_not_nan; [exact Hw|].
  apply SFdiv_not_nan; [apply of_Z_not_nan|].
  vm_compute. exact I.
Qed.

Lemma is_nan_false (x : float) : is_nan x = false -> Prim2SF x <> S754_nan.
Proof. intros H E. apply Prim2SF_nan in E. congruence. Qed.

Lemma abs_not_nan (x : float) :
  Prim2SF x <> S754_nan -> Prim2SF (abs x) <> S754_nan.
Proof. rewrite abs_spec. destruct (Prim2SF x); cbn; congruence. Qed.

(** ** Detent quantization *)

Lemma step_belowDetent (d : Detector) (i : Input) :
  belowDetent d -> belowDetent (fst (step d i)).
Proof.
  unfold belowDetent. intros H. destruct i as [m|a|now z|g m]; cbn [step fst];
    try exact H.
  rewrite gyroListener_angle.
  destruct (geb (abs (angleAccum (integrate d now z))) DETENT) eqn:E;
    [reflexivity | exact E].
Qed.

Lemma run_belowDetent (inputs : list Input) (d : Detector) :
  belowDetent d -> belowDetent (fst (run d inputs)).
Proof.
  revert d; induction inputs as [|i rest IH]; intros d H; [exact H|].
  rewrite fst_run_cons. apply IH, step_belowDetent, H.
Qed.

Lemma insideDetent_bounded (d : Detector) :
  insideDetent d -> SFbounded (Prim2SF (angleAccum d)).
Proof. apply ltb_abs_bounded. Qed.

Lemma SFbounded_not_nan (x : spec_float) : SFbounded x -> x <> S754_nan.
Proof. destruct x; cbn; intros H; [discriminate|contradiction..|discriminate]. Qed.

(** With a finite rate the integrated angle is a number. *)
Lemma integrate_not_nan (d : Detector) (now : Z) (z : float) :
  insideDetent d -> is_finite (z - gyroBias d) = true ->
  Prim2SF (angleAccum (integrate d now z)) <> S754_nan.
Proof.
  intros Hd Hf. apply insideDetent_bounded in Hd.
  unfold integrate; cbn [angleAccum].
  destruct (isAttached d && isStationary d);
    [|now apply SFbounded_not_nan].
  destruct (gtb (abs (z - gyroBias d)) 0.52) eqn:Hg;
    [|now apply SFbounded_not_nan].
  apply integrated_not_nan; [exact Hd|].
  apply fast_rate_finite; assumption.
Qed.

Lemma step_insideDetent (d : Detector) (i : Input) :
  insideDetent d -> finiteRates d [i] = true -> insideDetent (fst (step d i)).
Proof.
  unfold insideDetent at 2. intros Hd Hf.
  destruct i as [m|a|now z|g m]; cbn [step fst]; try exact Hd.
  cbn in Hf. rewrite andb_true_r in Hf.
  rewrite gyroListener_angle.
  destruct (geb (abs (angleAccum (integrate d now z))) DETENT) eqn:E;
    [reflexivity|].
  apply not_geb_ltb; [| vm_compute; discriminate | exact E].
  apply abs_not_nan, integrate_not_nan; assumption.
Qed.

Lemma run_insideDetent (inputs : list Input) (d : Detector) :
  insideDetent d -> finiteRates d inputs = true ->
  insideDetent (fst (run d inputs)).
Proof.
  revert d; induction inputs as [|i rest IH]; intros d Hd Hf; [exact Hd|].
  rewrite fst_run_cons. cbn [finiteRates] in Hf.
  apply andb_true_iff in Hf as [Hi Hr].
  apply IH; [|exact Hr].
  apply step_insideDetent; [exact Hd|].
  cbn [finiteRates]. now rewrite Hi.
Qed.

(** A gyro delivery that carries an infinite rate and arrives in the same
    millisecond as the reference time integrates infinity times 0: the
    accumulator becomes NaN, which is neither at least nor below DETENT. *)
Lemma angle_bound_fails_on_nan :
  ~ (forall t0 inputs,
       (abs (angleAccum (fst (run (mounted t0) inputs))) <? DETENT) = true).
Proof.
  intros H. specialize (H 0%Z (docked ++ [Gyro 0 infinity])).
  vm_compute in H. discriminate H.
Qed.

(** C10 (as amended): after every processing step the accumulator holds no
    full detent: in every reachable state the test [|angleAccum| >= DETENT]
    is false; the strict bound [|angleAccum| < DETENT] holds after every run
    whose bias-compensated rates are finite numbers, and more generally
    whenever the accumulator is a number (an infinite rate met with a zero
    time delta leaves it NaN); and a delivery whose integrated angle crosses
    the threshold leaves the accumulator at exactly 0 within the same
    step. *)
Theorem angle_stays_below_detent (t0 : Z) (inputs : list Input) :
  let d := fst (run (mounted t0) inputs) in
  geb (abs (angleAccum d)) DETENT = false /\
  (finiteRates (mounted t0) inputs = true ->
   (abs (angleAccum d) <? DETENT) = true) /\
  (is_nan (angleAccum d) = false -> (abs (angleAccum d) <? DETENT) = true) /\
  (forall now z,
     geb (abs (angleAccum (integrate d now z))) DETENT = true ->
     angleAccum (fst (gyroListener d now z)) = 0).
Proof.
  intros d.
  assert (angleAccum (mounted t0) = 0) as H0
    by (unfold mounted; now rewrite gestureEffect_angle).
  assert (belowDetent d) as Hd.
  { apply run_belowDetent. unfold belowDetent. now rewrite H0. }
  split; [exact Hd|split; [|split]].
  - intros Hf. apply run_insideDetent; [|exact Hf].
    unfold insideDetent. now rewrite H0.
  - intros Hn. apply not_geb_ltb; [| vm_compute; discriminate | exact Hd].
    apply abs_not_nan, is_nan_false, Hn.
  - intros now z Hc. rewrite gyroListener_angle, Hc. reflexivity.
Qed.

Lemma angle_stays_below_detent_witness :
  let inputs := docked ++ gyroTrain 10 (repeat 6 14) in
  let d := fst (run (mounted 0) inputs) in
  detents d = 1%Z /\ (abs (angleAccum d) <? DETENT) = true.
Proof.
  split; [reflexivity|].
  apply (angle_stays_below_detent 0 (docked ++ gyroTrain 10 (repeat 6 14))).
  vm_compute. reflexivity.
Defined.

(** The pseudocode keeps the same bound on its own accumulator. *)
Lemma onSensorUpdate_below_detent (env : Pseudocode.Env) (s : Pseudocode.State)
    (gyro : Vec3) (accel : list float) (mag : Vec3) :
  geb (abs (Pseudocode.angleAccum s)) Pseudocode.DETENT_ANGLE = false ->
  geb (abs (Pseudocode.angleAccum
              (fst (Pseudocode.onSensorUpdate env s gyro accel mag))))
      Pseudocode.DETENT_ANGLE = false.
Proof.
  intros H. unfold Pseudocode.onSensorUpdate.
  destruct (_ && _ && _); [|exact H].
  set (acc := Pseudocode.angleAccum s + _).
  destruct (geb (abs acc) Pseudocode.DETENT_ANGLE) eqn:E; [|exact E].
  destruct (_ >=? 2)%Z; [reflexivity|].
  destruct (_ <=? -1)%Z; reflexivity.
Qed.

(** The detent block fires on every crossing; it reads no clock. *)
Lemma detentLogic_fires_on_crossing (d : Detector) :
  geb (abs (angleAccum d)) DETENT = true ->
  snd (fst (detentLogic d)) = [impactMedium] /\ snd (detentLogic d) = true.
Proof. intros H. unfold detentLogic. rewrite H. now split. Qed.

(** C5: no dwell interval separates detents.  On the mount, a steady
    8 rad/s sampled every 10 ms crosses the detent angle on the 7th and on
    the 14th delivery: two detent pulses 70 ms apart, less than
    DWELL_TIME = 75 ms, and the second one is not suppressed (it even
    completes a confirmation). *)
Theorem detents_closer_than_dwell :
  emissions (mounted 0) (docked ++ gyroTrain 10 (repeat 8 14)) =
    [ (Gyro 70 8, [impactMedium]);
      (Gyro 140 8, [impactMedium; onConfirm; notificationSuccess]) ] /\
  (140 - 70 <? THRESHOLDS.DWELL_TIME)%Z = true.
Proof. vm_compute. split; reflexivity. Qed.

(** ** Gesture recognition *)

(** C1: the effect appends the running detent count, not the direction of
    the detent, and sums those counts.  One click clockwise, one click back,
    one click clockwise (directions +1, -1, +1, all within 3 s, sum 1) leaves
    the counts 1, 0, 1 in the window, whose sum 2 fires onConfirm. *)
Theorem gesture_sums_running_counts :
  let first := docked ++ gyroTrain 10 (repeat 6 9 ++ repeat (-6) 9) in
  let d := fst (run (mounted 0) first) in
  let third := gyroTrain 190 (repeat 6 9) in
  emissions (mounted 0) first =
    [ (Gyro 90 6, [impactMedium]); (Gyro 180 (-6), [impactMedium]) ] /\
  detentHistory d = [mkEntry 0 0; mkEntry 1 90; mkEntry 0 180] /\
  detents d = 0%Z /\
  emissions d third =
    [ (Gyro 270 6, [impactMedium; onConfirm; notificationSuccess]) ] /\
  (1 + -1 + 1 <? THRESHOLDS.CONFIRM_DETENTS)%Z = true.
Proof. vm_compute. repeat split. Qed.

(** C6: a stale detent still counts.  One clockwise detent at 90 ms, four
    seconds of rest, and one more clockwise detent at 4180 ms: the first
    entry has been pruned, no timeout is reported, and the second detent
    alone fires onConfirm because the entry it appends carries the running
    count 2. *)
Theorem stale_detent_confirms :
  let inputs :=
    docked ++ gyroTrain 10 (repeat 6 9 ++ repeat 0 400 ++ repeat 6 9) in
  emissions (mounted 0) inputs =
    [ (Gyro 90 6, [impactMedium]);
      (Gyro 4180 6, [impactMedium; onConfirm; notificationSuccess]) ] /\
  (THRESHOLDS.GESTURE_WINDOW <? 4180 - 90)%Z = true /\
  recent 4180 [mkEntry 0 0; mkEntry 1 90; mkEntry 2 4180] = [mkEntry 2 4180].
Proof. vm_compute. repeat split. Qed.

(** ** Pickup *)

(** The accelerometer listener reads the magnitude of a sample only, so the
    direction of gravity, hence the tilt, cannot influence the detector. *)
Lemma accelListener_ignores_direction (d : Detector) (a b : Vec3) :
  magnitude a = magnitude b -> accelListener d a = accelListener d b.
Proof. intros H. unfold accelListener. now rewrite H. Qed.

(** C8: a pickup does not reset anything.  With one detent counted and
    0.3 rad accumulated, an accelerometer sample turned by 90 degrees from
    the resting direction (far beyond the 8 degree threshold) leaves the
    accumulator, the detent count and the history as they were, and four
    more gyro deliveries complete the confirmation. *)
Theorem tilt_does_not_reset :
  let rest := mkVec3 0 0 0.01 in
  let tilted := mkVec3 0.01 0 0 in
  let d := fst (run (mounted 0) (docked ++ gyroTrain 10 (repeat 6 14))) in
  let d' := fst (step d (Accel tilted)) in
  tiltExceeded rest tilted = true /\
  detents d = 1%Z /\ angleAccum d = 0.3 /\
  angleAccum d' = angleAccum d /\ detents d' = detents d /\
  detentHistory d' = detentHistory d /\
  emissions d' (gyroTrain 150 (repeat 6 4)) =
    [ (Gyro 180 6, [impactMedium; onConfirm; notificationSuccess]) ].
Proof. vm_compute. repeat split. Qed.

(** * Further properties of the listeners *)

(** ** NaN readings *)

Lemma is_nan_Prim2SF (x : float) : is_nan x = true -> Prim2SF x = S754_nan.
Proof. intros H. unfold Prim2SF. now rewrite H. Qed.

Lemma sub_nan (x y : float) :
  is_nan x = true \/ is_nan y = true -> is_nan (x - y) = true.
Proof.
  intros H. apply Prim2SF_nan. rewrite sub_spec.
  destruct H as [H|H]; apply is_nan_Prim2SF in H; rewrite H;
    [reflexivity | destruct (Prim2SF x); reflexivity].
Qed.

Lemma add_nan (x y : float) :
  is_nan x = true \/ is_nan y = true -> is_nan (x + y) = true.
Proof.
  intros H. apply Prim2SF_nan. rewrite add_spec.
  destruct H as [H|H]; apply is_nan_Prim2SF in H; rewrite H;
    [reflexivity | destruct (Prim2SF x); reflexivity].
Qed.

Lemma mul_nan (x y : float) :
  is_nan x = true \/ is_nan y = true -> is_nan (x * y) = true.
Proof.
  intros H. apply Prim2SF_nan. rewrite mul_spec.
  destruct H as [H|H]; apply is_nan_Prim2SF in H; rewrite H;
    [reflexivity | destruct (Prim2SF x); reflexivity].
Qed.

Lemma div_nan_l (x y : float) : is_nan x = true -> is_nan (x / y) = true.
Proof.
  intros H. apply Prim2SF_nan. rewrite div_spec.
  apply is_nan_Prim2SF in H. now rewrite H.
Qed.

Lemma sqrt_nan (x : float) : is_nan x = true -> is_nan (PrimFloat.sqrt x) = true.
Proof.
  intros H. apply Prim2SF_nan. rewrite sqrt_spec.
  apply is_nan_Prim2SF in H. now rewrite H.
Qed.

Lemma abs_nan (x : float) : is_nan x = true -> is_nan (abs x) = true.
Proof.
  intros H. apply Prim2SF_nan. rewrite abs_spec.
  apply is_nan_Prim2SF in H. now rewrite H.
Qed.

Lemma ltb_nan (x y : float) :
  is_nan x = true \/ is_nan y = true -> (x <? y) = false.
Proof.
  intros H. rewrite ltb_spec. unfold SFltb.
  destruct H as [H|H]; apply is_nan_Prim2SF in H; rewrite H;
    [reflexivity | destruct (Prim2SF x); reflexivity].
Qed.

Lemma leb_nan (x y : float) :
  is_nan x = true \/ is_nan y = true -> (x <=? y) = false.
Proof.
  intros H. rewrite leb_spec. unfold SFleb.
  destruct H as [H|H]; apply is_nan_Prim2SF in H; rewrite H;
    [reflexivity | destruct (Prim2SF x); reflexivity].
Qed.

Lemma magnitude_nan (v : Vec3) :
  is_nan (vx v) = true \/ is_nan (vy v) = true \/ is_nan (vz v) = true ->
  is_nan (magnitude v) = true.
Proof.
  intros H. unfold magnitude. apply sqrt_nan.
  destruct H as [H|[H|H]].
  - apply add_nan; left. apply add_nan; left. apply mul_nan; now left.
  - apply add_nan; left. apply add_nan; right. apply mul_nan; now left.
  - apply add_nan; right. apply mul_nan; now left.
Qed.

(** X1: a magnetometer sample with a NaN component, or a NaN baseline,
    always reports the phone detached. *)
Theorem nan_field_detaches (d : Detector) (m : Vec3) :
  is_nan (vx m) = true \/ is_nan (vy m) = true \/ is_nan (vz m) = true \/
  is_nan (magBaseline d) = true ->
  isAttached (fst (step d (Mag m))) = false.
Proof.
  intros H. cbn [step fst magListener isAttached]. unfold gtb.
  apply ltb_nan; right. apply sub_nan.
  destruct H as [H|[H|[H|H]]]; [left; apply magnitude_nan; tauto..|now right].
Qed.

Lemma nan_field_detaches_witness :
  isAttached (fst (step (fst (run (mounted 0) docked))
                        (Mag (mkVec3 100 nan 0)))) = false.
Proof.
  apply (nan_field_detaches (fst (run (mounted 0) docked)) (mkVec3 100 nan 0)).
  right; left. reflexivity.
Defined.

Lemma sumSquares_nan_from (w : list float) (acc : float) :
  is_nan acc = true ->
  is_nan (fold_left (fun sum v => sum + v * v) w acc) = true.
Proof.
  revert acc; induction w as [|v w IH]; intros acc H; [exact H|].
  cbn [fold_left]. apply IH, add_nan. now left.
Qed.

Lemma sumSquares_nan (w : list float) (v : float) :
  In v w -> is_nan v = true -> is_nan (sumSquares w) = true.
Proof.
  unfold sumSquares. generalize 0. induction w as [|x w IH]; intros acc Hin Hv;
    [contradiction|].
  cbn [fold_left]. destruct Hin as [->|Hin].
  - apply sumSquares_nan_from, add_nan. right. apply mul_nan. now left.
  - now apply IH.
Qed.

(** X2: while one of the 20 newest accelerometer magnitudes is NaN the
    phone is not reported stationary: a single bad sample closes the
    stationarity gate until twenty later samples have pushed it out. *)
Theorem nan_sample_blocks_stationarity (t0 : Z) (inputs : list Input)
    (v : float) :
  In v (lastN 20 (map magnitude (accels inputs))) -> is_nan v = true ->
  isStationary (fst (run (mounted t0) inputs)) = false.
Proof.
  intros Hin Hv.
  pose proof (gestureEffect_gates (initial t0) t0) as (_ & Hs & _ & _ & Hw).
  destruct (accel_window_invariant inputs (mounted t0) []) as [Ew Es].
  - unfold mounted. rewrite Hw. reflexivity.
  - unfold mounted. rewrite Hs, Hw. reflexivity.
  - rewrite Es, Ew. cbn [app]. apply ltb_nan; left.
    unfold calculateRMS. apply sqrt_nan, div_nan_l.
    exact (sumSquares_nan _ v Hin Hv).
Qed.

Lemma nan_sample_blocks_stationarity_witness :
  isStationary
    (fst (run (mounted 0)
            [Accel (mkVec3 0 0 nan); Accel (mkVec3 0 0 0.01)])) = false.
Proof.
  apply (nan_sample_blocks_stationarity 0
           [Accel (mkVec3 0 0 nan); Accel (mkVec3 0 0 0.01)]
           (magnitude (mkVec3 0 0 nan))).
  - left. reflexivity.
  - reflexivity.
Defined.

(** ** Deliveries that are not integrated *)

Lemma quiet_gyro (d : Detector) (now : Z) (z : float) :
  belowDetent d ->
  isAttached d && isStationary d && gtb (abs (z - gyroBias d)) 0.52 = false ->
  step d (Gyro now z) = (withLastTime d now, []).
Proof.
  intros Hb Hc.
  assert (integrate d now z = withLastTime d now) as Hi.
  { unfold integrate, withLastTime. f_equal.
    destruct (isAttached d && isStationary d); [|reflexivity].
    cbn [andb] in Hc. now rewrite Hc. }
  cbn [step]. unfold gyroListener, detentLogic. rewrite Hi.
  cbn [withLastTime angleAccum]. unfold belowDetent in Hb. now rewrite Hb.
Qed.

Lemma mounted_belowDetent (t0 : Z) (inputs : list Input) :
  belowDetent (fst (run (mounted t0) inputs)).
Proof.
  apply run_belowDetent. unfold belowDetent, mounted.
  now rewrite gestureEffect_angle.
Qed.

(** X3: in every reachable state, a gyro delivery that arrives while the
    phone is not attached, or not stationary, or that turns no faster than
    0.52 rad/s, emits nothing and changes nothing but the reference time:
    no detent and no gesture result can come from it. *)
Theorem gated_delivery_is_silent (t0 : Z) (inputs : list Input) (now : Z)
    (z : float) :
  let d := fst (run (mounted t0) inputs) in
  isAttached d && isStationary d && gtb (abs (z - gyroBias d)) 0.52 = false ->
  step d (Gyro now z) = (withLastTime d now, []).
Proof. intros d H. apply quiet_gyro; [apply mounted_belowDetent|exact H]. Qed.

Lemma gated_delivery_is_silent_witness :
  let d := fst (run (mounted 0) [Mag (mkVec3 100 0 0)]) in
  step d (Gyro 10 6) = (withLastTime d 10, []).
Proof.
  apply (gated_delivery_is_silent 0 [Mag (mkVec3 100 0 0)] 10 6). reflexivity.
Defined.

(** X4: a NaN gyro reading, or a NaN bias, is never integrated: in every
    reachable state such a delivery leaves the accumulator, the detent count
    and the history untouched and emits nothing. *)
Theorem nan_rate_is_ignored (t0 : Z) (inputs : list Input) (now : Z)
    (z : float) :
  let d := fst (run (mounted t0) inputs) in
  is_nan z = true \/ is_nan (gyroBias d) = true ->
  step d (Gyro now z) = (withLastTime d now, []).
Proof.
  intros d H. apply quiet_gyro; [apply mounted_belowDetent|].
  apply andb_false_intro2. unfold gtb. apply ltb_nan; right.
  apply abs_nan, sub_nan, H.
Qed.

Lemma nan_rate_is_ignored_witness :
  let d := fst (run (mounted 0) docked) in
  step d (Gyro 10 nan) = (withLastTime d 10, []).
Proof.
  apply (nan_rate_is_ignored 0 docked 10 nan). left. reflexivity.
Defined.

(** ** Reference time *)

Lemma lastGyro_run (inputs : list Input) (d : Detector) :
  lastTime (fst (run d inputs)) = lastGyro (lastTime d) inputs.
Proof.
  revert d; induction inputs as [|i rest IH]; intros d; [reflexivity|].
  rewrite fst_run_cons, IH.
  destruct i as [m|a|now z|g m]; cbn [step fst lastGyro]; try reflexivity.
  now rewrite gyroListener_lastTime.
Qed.

(** X5: after any run the reference time of the integrator is the arrival
    time of the most recent gyro delivery, whether or not that delivery was
    integrated or produced a detent, and the mounting time when no gyro
    delivery arrived; magnetometer and accelerometer samples and
    calibrations never move it. *)
Theorem lastTime_is_last_gyro (t0 : Z) (inputs : list Input) :
  lastTime (fst (run (mounted t0) inputs)) = lastGyro t0 inputs.
Proof.
  rewrite lastGyro_run. f_equal. unfold mounted, gestureEffect.
  destruct (_ >=? 2)%Z; [reflexivity|].
  destruct (_ <=? -1)%Z; reflexivity.
Qed.

(** ** What one delivery can emit *)

(** X6: a delivery emits nothing, or one detent pulse, or one detent pulse
    followed by exactly one of the two results with its notification: never
    a confirmation together with a cancellation, never a result without the
    detent pulse that triggered it; and only gyro deliveries emit. *)
Theorem delivery_emits_at_most_one_result (d : Detector) (i : Input) :
  (snd (step d i) = [] \/
   snd (step d i) = [impactMedium] \/
   snd (step d i) = [impactMedium; onConfirm; notificationSuccess] \/
   snd (step d i) = [impactMedium; onCancel; notificationWarning]) /\
  (snd (step d i) <> [] -> exists now z, i = Gyro now z).
Proof.
  destruct i as [m|a|now z|g m]; cbn [step snd];
    try (split; [now left|intros H; now contradiction H]).
  split; [|intros _; now exists now, z].
  unfold gyroListener, detentLogic.
  destruct (geb (abs (angleAccum (integrate d now z))) DETENT); [|now left].
  unfold gestureEffect.
  destruct (_ >=? 2)%Z; [cbn; tauto|].
  destruct (_ <=? -1)%Z; cbn; tauto.
Qed.

Lemma delivery_emits_at_most_one_result_witness :
  exists now z, Gyro 1000 1 = Gyro now z.
Proof.
  apply (delivery_emits_at_most_one_result
           (fst (run (mounted 0) docked)) (Gyro 1000 1)).
  vm_compute. discriminate.
Defined.

(** ** Direction of a detent *)

Lemma crossing_sign (a D : float) (m : positive) (e : Z) :
  Prim2SF D = S754_finite false m e ->
  geb (abs a) D = true ->
  (gtb a 0 = true /\ geb a D = true) \/
  (gtb a 0 = false /\ geb (- a) D = true).
Proof.
  intros HD. unfold geb, gtb.
  rewrite !leb_spec, !ltb_spec, abs_spec, opp_spec, HD.
  change (Prim2SF 0) with (S754_zero false).
  destruct (Prim2SF a) as [s|s| |s m' e']; try destruct s; cbn;
    intros H; try discriminate H; auto.
Qed.

(** X7: when the accumulator has crossed the detent angle the detent block
    resets it to exactly 0 and moves the detent count by exactly one step in
    the direction of the rotation: up when the angle is at least +DETENT,
    down when it is at most -DETENT. *)
Theorem detent_follows_rotation (d : Detector) :
  geb (abs (angleAccum d)) DETENT = true ->
  let d' := fst (fst (detentLogic d)) in
  angleAccum d' = 0 /\
  ((geb (angleAccum d) DETENT = true /\ detents d' = (detents d + 1)%Z) \/
   (geb (- angleAccum d) DETENT = true /\ detents d' = (detents d - 1)%Z)).
Proof.
  intros H d'. subst d'. unfold detentLogic. rewrite H. cbn [fst angleAccum detents].
  split; [reflexivity|].
  assert (exists m e, Prim2SF DETENT = S754_finite false m e) as (m & e & HD)
    by (vm_compute; eauto).
  destruct (crossing_sign (angleAccum d) DETENT m e HD H) as [[Hp Hg]|[Hp Hg]];
    rewrite Hp; [left|right]; split; auto.
Qed.

Lemma detent_follows_rotation_witness :
  let d := integrate (fst (run (mounted 0) docked)) 1000 (-1) in
  let d' := fst (fst (detentLogic d)) in
  angleAccum d' = 0 /\
  ((geb (angleAccum d) DETENT = true /\ detents d' = (detents d + 1)%Z) \/
   (geb (- angleAccum d) DETENT = true /\ detents d' = (detents d - 1)%Z)).
Proof.
  apply (detent_follows_rotation
           (integrate (fst (run (mounted 0) docked)) 1000 (-1))).
  reflexivity.
Defined.

(** ** The gesture window *)

Lemma totalCount_from (h : list DetentEntry) (a : Z) :
  fold_left (fun sum e => (sum + count e)%Z) h a = (a + totalCount h)%Z.
Proof.
  unfold totalCount. revert a; induction h as [|e h IH]; intros a; cbn.
  - lia.
  - rewrite IH, (IH (count e)). lia.
Qed.

Lemma totalCount_snoc (h : list DetentEntry) (e : DetentEntry) :
  totalCount (h ++ [e]) = (totalCount h + count e)%Z.
Proof.
  unfold totalCount at 1. rewrite fold_left_app. cbn [fold_left].
  fold (totalCount h). reflexivity.
Qed.

Lemma totalCount_nonneg (h : list DetentEntry) :
  Forall (fun e => (0 <= count e)%Z) h -> (0 <= totalCount h)%Z.
Proof.
  induction h as [|e h IH] using rev_ind; intros H; [cbn; lia|].
  rewrite totalCount_snoc. apply Forall_app in H as [Hh He].
  inversion He; subst. specialize (IH Hh). lia.
Qed.

Lemma totalCount_nonpos (h : list DetentEntry) :
  Forall (fun e => (count e <= 0)%Z) h -> (totalCount h <= 0)%Z.
Proof.
  induction h as [|e h IH] using rev_ind; intros H; [cbn; lia|].
  rewrite totalCount_snoc. apply Forall_app in H as [Hh He].
  inversion He; subst. specialize (IH Hh). lia.
Qed.

Lemma recent_Forall (P : DetentEntry -> Prop) (now : Z) (h : list DetentEntry) :
  Forall P h -> Forall P (recent now h).
Proof.
  intros H. apply Forall_forall. intros e He.
  apply filter_In in He as [He _]. rewrite Forall_forall in H. auto.
Qed.

(** The entry pushed at [now] is never pruned at [now]. *)
Lemma recent_snoc (now c : Z) (h : list DetentEntry) :
  recent now (h ++ [mkEntry c now]) = recent now h ++ [mkEntry c now].
Proof.
  unfold recent. rewrite filter_app. cbn [filter time].
  now replace (now - now)%Z with 0%Z by lia.
Qed.

(** X8: after the gesture effect every entry left in the history is younger
    than 3000 ms, and when the effect fires no callback the history ends
    with the entry it has just pushed: pruning never empties the window, so
    the effect has no state in which a timeout could be observed. *)
Theorem effect_keeps_new_entry (d : Detector) (now : Z) :
  let r := gestureEffect d now in
  Forall (fun e => (now - time e < 3000)%Z) (detentHistory (fst r)) /\
  (snd r = [] ->
   detentHistory (fst r) =
     recent now (detentHistory d) ++ [mkEntry (detents d) now]).
Proof.
  cbv zeta. unfold gestureEffect. rewrite recent_snoc.
  destruct (_ >=? 2)%Z; [split; [constructor|discriminate]|].
  destruct (_ <=? -1)%Z; [split; [constructor|discriminate]|].
  cbn [fst snd detentHistory]. split; [|reflexivity].
  apply Forall_app; split.
  - apply Forall_forall. intros e He. apply filter_In in He as [_ He].
    now apply Z.ltb_lt.
  - constructor; [cbn; lia|constructor].
Qed.

Lemma effect_keeps_new_entry_witness :
  detentHistory (fst (gestureEffect (mounted 0) 4000)) =
    recent 4000 (detentHistory (mounted 0)) ++ [mkEntry 0 4000].
Proof.
  apply (effect_keeps_new_entry (mounted 0) 4000). reflexivity.
Defined.

(** X9: whenever the running detent count is 2 or more and no entry of the
    history carries a negative count, the effect fires onConfirm whatever
    the timestamps are: the age of the earlier detents plays no part. *)
Theorem count_two_confirms (d : Detector) (now : Z) :
  Forall (fun e => (0 <= count e)%Z) (detentHistory d) ->
  (2 <= detents d)%Z ->
  snd (gestureEffect d now) = [onConfirm; notificationSuccess].
Proof.
  intros Hh Hd. unfold gestureEffect. rewrite recent_snoc, totalCount_snoc.
  pose proof (totalCount_nonneg _ (recent_Forall _ now _ Hh)) as Ht.
  cbn [count].
  destruct (Z.geb_spec (totalCount (recent now (detentHistory d)) + detents d) 2);
    [reflexivity|lia].
Qed.

Lemma count_two_confirms_witness :
  let d1 :=
    fst (run (mounted 0)
           (docked ++ gyroTrain 10 (repeat 6 9) ++ [Gyro 100000 0])) in
  snd (gestureEffect (fst (fst (detentLogic (integrate d1 101000 1)))) 101000)
  = [onConfirm; notificationSuccess].
Proof.
  apply count_two_confirms.
  - vm_compute. repeat (constructor; [intros H; discriminate H|]). constructor.
  - vm_compute. intros H; discriminate H.
Defined.

(** X10: whenever the running detent count is -1 or less and no entry of
    the history carries a positive count, the effect fires onCancel. *)
Theorem negative_count_cancels (d : Detector) (now : Z) :
  Forall (fun e => (count e <= 0)%Z) (detentHistory d) ->
  (detents d <= -1)%Z ->
  snd (gestureEffect d now) = [onCancel; notificationWarning].
Proof.
  intros Hh Hd. unfold gestureEffect. rewrite recent_snoc, totalCount_snoc.
  pose proof (totalCount_nonpos _ (recent_Forall _ now _ Hh)) as Ht.
  cbn [count].
  destruct (Z.geb_spec (totalCount (recent now (detentHistory d)) + detents d) 2);
    [lia|].
  destruct (Z.leb_spec (totalCount (recent now (detentHistory d)) + detents d) (-1));
    [reflexivity|lia].
Qed.

Lemma negative_count_cancels_witness :
  snd (gestureEffect
         (fst (fst (detentLogic
                      (integrate (fst (run (mounted 0) docked)) 1000 (-1)))))
         1000)
  = [onCancel; notificationWarning].
Proof.
  apply negative_count_cancels.
  - vm_compute. repeat (constructor; [intros H; discriminate H|]). constructor.
  - vm_compute. intros H; discriminate H.
Defined.

(** X11: pruning composes along a clock that does not run backwards:
    pruning at [now] and then at a later [now'] leaves what pruning at
    [now'] alone leaves, so an entry dropped once never returns. *)
Theorem recent_composes (now now' : Z) (h : list DetentEntry) :
  (now <= now')%Z -> recent now' (recent now h) = recent now' h.
Proof.
  intros Hle. unfold recent. induction h as [|e h IH]; [reflexivity|].
  cbn [filter].
  destruct (Z.ltb_spec (now - time e) 3000) as [H1|H1]; cbn [filter].
  - now rewrite IH.
  - rewrite IH.
    destruct (Z.ltb_spec (now' - time e) 3000) as [H2|H2]; [lia|reflexivity].
Qed.

Lemma recent_composes_witness :
  recent 5000 (recent 3500 [mkEntry 1 90; mkEntry 2 3400]) =
  recent 5000 [mkEntry 1 90; mkEntry 2 3400].
Proof. apply recent_composes. lia. Defined.

(** X12: the detent count never moves silently: a delivery that emits
    nothing leaves the detent count and the gesture history as they were. *)
Theorem silent_delivery_keeps_count (d : Detector) (i : Input) :
  snd (step d i) = [] ->
  detents (fst (step d i)) = detents d /\
  detentHistory (fst (step d i)) = detentHistory d.
Proof.
  destruct i as [m|a|now z|g m]; cbn [step fst snd]; try (intros _; now split).
  unfold gyroListener, detentLogic.
  destruct (geb (abs (angleAccum (integrate d now z))) DETENT).
  - destruct (gestureEffect _ now) as [d2 r]. cbn. discriminate.
  - intros _. now split.
Qed.

Lemma silent_delivery_keeps_count_witness :
  let d := fst (run (mounted 0) (docked ++ gyroTrain 10 (repeat 6 9))) in
  detents (fst (step d (Gyro 100 6))) = detents d /\
  detentHistory (fst (step d (Gyro 100 6))) = detentHistory d.
Proof.
  apply (silent_delivery_keeps_count
           (fst (run (mounted 0) (docked ++ gyroTrain 10 (repeat 6 9))))
           (Gyro 100 6)).
  reflexivity.
Defined.

(** ** Magnitudes *)

Lemma binary_round_aux_not_neg (mx ex : Z) (lx : location) :
  SFltb (binary_round_aux prec emax false mx ex lx) (S754_zero false) = false.
Proof.
  unfold binary_round_aux.
  destruct (shr_fexp prec emax mx ex lx) as [mrs' e'].
  destruct (shr_fexp prec emax _ e' loc_Exact) as [mrs'' e''].
  destruct (shr_m mrs''); try reflexivity.
  destruct (e'' <=? emax - prec)%Z; reflexivity.
Qed.

Lemma SFsqrt_not_neg (x : spec_float) :
  SFltb (SFsqrt prec emax x) (S754_zero false) = false.
Proof.
  destruct x as [s|[|]| |[|] m e]; try reflexivity.
  unfold SFsqrt. destruct (SFsqrt_core_binary prec emax (Z.pos m) e) as [[mz ez] lz].
  apply binary_round_aux_not_neg.
Qed.

(** X13: the magnitude of a sample is never negative, whatever the three
    components are (it may be NaN or infinite, but it is never below 0). *)
Theorem magnitude_not_negative (v : Vec3) : (magnitude v <? 0) = false.
Proof.
  unfold magnitude. rewrite ltb_spec, sqrt_spec.
  change (Prim2SF 0) with (S754_zero false). apply SFsqrt_not_neg.
Qed.

(** ** The pseudocode over a run *)

Lemma onSensorUpdate_count (env : Pseudocode.Env) (s : Pseudocode.State)
    (gyro : Vec3) (accel : list float) (mag : Vec3) :
  let r := Pseudocode.onSensorUpdate env s gyro accel mag in
  (Z.abs (Pseudocode.detentCount (fst r))
   <= Z.abs (Pseudocode.detentCount s)
      + Z.of_nat (length (filter Pseudocode.isHaptic (snd r))))%Z.
Proof.
  cbv zeta. unfold Pseudocode.onSensorUpdate.
  destruct (_ && _ && _); [|cbn; lia].
  set (acc := Pseudocode.angleAccum s + _).
  destruct (geb (abs acc) Pseudocode.DETENT_ANGLE); [|cbn; lia].
  destruct (gtb acc 0);
    (destruct (_ >=? 2)%Z; [cbn; lia|]);
    (destruct (_ <=? -1)%Z; cbn; lia).
Qed.

Lemma updates_invariant (env : Pseudocode.Env)
    (readings : list (Vec3 * list float * Vec3)) (s : Pseudocode.State) :
  geb (abs (Pseudocode.angleAccum s)) Pseudocode.DETENT_ANGLE = false ->
  let r := Pseudocode.updates env s readings in
  geb (abs (Pseudocode.angleAccum (fst r))) Pseudocode.DETENT_ANGLE = false /\
  (Z.abs (Pseudocode.detentCount (fst r))
   <= Z.abs (Pseudocode.detentCount s)
      + Z.of_nat (length (filter Pseudocode.isHaptic (snd r))))%Z.
Proof.
  revert s; induction readings as [|[[gyro accel] mag] rest IH]; intros s Hs.
  - cbn. split; [exact Hs|lia].
  - cbn [Pseudocode.updates].
    pose proof (onSensorUpdate_below_detent env s gyro accel mag Hs) as H1.
    pose proof (onSensorUpdate_count env s gyro accel mag) as C1.
    destruct (Pseudocode.onSensorUpdate env s gyro accel mag) as [s1 o1].
    cbn [fst snd] in H1, C1.
    specialize (IH s1 H1). cbv zeta in IH.
    destruct (Pseudocode.updates env s1 rest) as [s2 o2].
    cbn [fst snd] in IH |- *. destruct IH as [H2 C2].
    split; [exact H2|].
    rewrite filter_app, length_app. lia.
Qed.

(** X14: over any sequence of calls of the pseudocode's onSensorUpdate from
    its initial state, the accumulator never ends a call with a full detent
    angle, and the detent count never moves without a haptic pulse: its
    absolute value is at most the number of triggerHaptic calls so far. *)
Theorem pseudocode_run_invariants (env : Pseudocode.Env)
    (readings : list (Vec3 * list float * Vec3)) :
  let r := Pseudocode.updates env Pseudocode.start readings in
  geb (abs (Pseudocode.angleAccum (fst r))) Pseudocode.DETENT_ANGLE = false /\
  (Z.abs (Pseudocode.detentCount (fst r))
   <= Z.of_nat (length (filter Pseudocode.isHaptic (snd r))))%Z.
Proof.
  destruct (updates_invariant env readings Pseudocode.start eq_refl) as [H C].
  split; [exact H|exact C].
Qed.

(** ** The two write-ups of the listeners *)

Lemma POC_integrate (d : Detector) (now : Z) (z : float) :
  POC.integrate d now z = integrate d now z.
Proof.
  unfold POC.integrate, integrate. f_equal.
  destruct (isAttached d && isStationary d); [|reflexivity].
  cbn [andb]. reflexivity.
Qed.

(** X15: the magnetometer listener and the gyro listener (integration,
    detent block and gesture effect) of ROTATION_POC.md agree with those of
    the reference: on every detector state and every sample they produce the
    same next state, and the same callbacks and detent pulses in the same
    order; only the notification haptics of the reference are absent from
    the POC. *)
Theorem POC_agrees_with_reference (d : Detector) :
  (forall m, POC.magListener d m = magListener d m) /\
  (forall now z,
     fst (POC.gyroListener d now z) = fst (gyroListener d now z) /\
     snd (POC.gyroListener d now z) =
       filter (fun e => negb (isNotification e)) (snd (gyroListener d now z))).
Proof.
  split.
  - intros m. unfold POC.magListener, magListener. now destruct (gtb _ 40).
  - intros now z.
    unfold POC.gyroListener, gyroListener. rewrite POC_integrate.
    unfold POC.detentLogic, detentLogic.
    change POC.DETENT_ANGLE with DETENT.
    destruct (geb (abs (angleAccum (integrate d now z))) DETENT);
      [|now split].
    unfold POC.gestureEffect, gestureEffect, recent.
    change POC.GESTURE_WINDOW with 3000%Z.
    destruct (_ >=? 2)%Z; [now split|].
    destruct (_ <=? -1)%Z; now split.
Qed.

(** ** The window when the RMS is taken *)

(** X16: the RMS is never taken over an empty window: after every
    accelerometer sample the window is non-empty and ends with the magnitude
    of that sample, whatever the window held before. *)
Theorem window_ends_with_newest (d : Detector) (a : Vec3) :
  let w := accelWindow (fst (step d (Accel a))) in
  w <> [] /\ last w 0 = magnitude a.
Proof.
  cbn [step fst accelListener accelWindow]. unfold pushWindow.
  destruct (Nat.ltb_spec 20 (length (accelWindow d ++ [magnitude a]))) as [H|H].
  - destruct (accelWindow d) as [|x w]; [cbn in H; lia|].
    cbn [app tl]. split; [now destruct w|apply last_last].
  - split; [now destruct (accelWindow d)|apply last_last].
Qed.

(** ** Independent streams *)

(** X17: magnetometer and accelerometer deliveries commute: the two
    listeners touch disjoint parts of the detector, so the order in which
    two such samples arrive does not change the resulting state. *)
Theorem mag_accel_commute (d : Detector) (m a : Vec3) :
  fst (run d [Mag m; Accel a]) = fst (run d [Accel a; Mag m]).
Proof. reflexivity. Qed.

(** X18: a first clockwise detent alone produces no result: when the
    running count is 1 and every entry of the history carries the count 0,
    the effect fires neither callback. *)
Theorem single_detent_gives_no_result (d : Detector) (now : Z) :
  Forall (fun e => count e = 0%Z) (detentHistory d) ->
  detents d = 1%Z ->
  snd (gestureEffect d now) = [].
Proof.
  intros Hh Hd. unfold gestureEffect. rewrite recent_snoc, totalCount_snoc.
  assert (totalCount (recent now (detentHistory d)) = 0%Z) as Ht.
  { assert (0 <= totalCount (recent now (detentHistory d)))%Z
      by (apply totalCount_nonneg, recent_Forall;
          eapply Forall_impl; [|exact Hh]; cbn; intros; lia).
    assert (totalCount (recent now (detentHistory d)) <= 0)%Z
      by (apply totalCount_nonpos, recent_Forall;
          eapply Forall_impl; [|exact Hh]; cbn; intros; lia).
    lia. }
  rewrite Ht, Hd. reflexivity.
Qed.

Lemma single_detent_gives_no_result_witness :
  snd (gestureEffect
         (fst (fst (detentLogic
                      (integrate (fst (run (mounted 0) docked)) 1000 1))))
         1000) = [].
Proof.
  apply single_detent_gives_no_result.
  - vm_compute. repeat (constructor; [reflexivity|]). constructor.
  - reflexivity.
Defined.
